(** * Swift metadata decoding in go-macho: flag words, field kinds, renderings

    A shallow embedding of [types/swift/protocols/protocols.go] and
    [types/swift/fields/fields.go].  Go's fixed-width unsigned integers are
    integers of [Z] whose conversions write the wrap-around out; the
    packed flag words are decoded with [Z.land] and [Z.shiftr] exactly as
    the Go methods mask and shift them; the [String] methods go through a
    model of the fragment of [fmt.Sprintf] that the sources use. *)

From Stdlib Require Import ZArith Bool List Lia.
From Stdlib Require Import Strings.Ascii Strings.String Numbers.DecimalString.
Import ListNotations.

Local Open Scope string_scope.
Local Open Scope Z_scope.

(** ** The Go side: integer conversions and [fmt] *)

Module golang.

(** Conversion to an unsigned type of [w] bits keeps the low [w] bits. *)
Definition to_unsigned (w z : Z) : Z := z mod 2 ^ w.

Definition uint8 : Z -> Z := to_unsigned 8.
Definition uint16 : Z -> Z := to_unsigned 16.
Definition uint32 : Z -> Z := to_unsigned 32.

(** Membership in an unsigned type of [w] bits. *)
Definition is_unsigned (w z : Z) : Prop := 0 <= z < 2 ^ w.

(** The field of [width] bits at position [pos] of a packed word. *)
Definition slice (f pos width : Z) : Z := (f / 2 ^ pos) mod 2 ^ width.

(** Whether [a] and [b] have the same bits at the [n] positions from [lo]. *)
Definition agree_on (a b lo : Z) (n : nat) : bool :=
  forallb (fun j => Bool.eqb (Z.testbit a (lo + Z.of_nat j))
                             (Z.testbit b (lo + Z.of_nat j)))
          (seq 0 n).

(** The newline of Go's ["\n"]. *)
Definition LF : string := String (ascii_of_nat 10) EmptyString.

(** [%t] of a [bool]. *)
Definition fmt_bool (b : bool) : string := if b then "true" else "false".

(** Conversion to a signed type of [w] bits: two's complement wrap-around. *)
Definition to_signed (w z : Z) : Z := (z + 2 ^ (w - 1)) mod 2 ^ w - 2 ^ (w - 1).

(** [int], taken at the 64 bits it has on the targets of Mach-O binaries. *)
Definition int : Z -> Z := to_signed 64.

(** [%d] of an integer. *)
Definition fmt_int (z : Z) : string := NilZero.string_of_int (Z.to_int z).

(** *** [fmt.Sprintf]

    The fragment the sources use: literal text and the plain verbs [%t],
    [%d] and [%s] (and [%%]), no flags, widths or precisions.  A format is
    split into directives, and the directives fix the types of the
    operands, the way [go vet] checks a call: [%t] takes a [bool], [%d] an
    integer, [%s] the text of its operand, which for an operand with a
    [String] method is what that method returns.  A directive outside the
    fragment takes an operand of the empty type, so no such call can be
    written. *)
Inductive directive : Type :=
| Lit (c : ascii)
| VerbT
| VerbD
| VerbS
| Unsupported.

Definition verb (c : ascii) : directive :=
  if Ascii.eqb c "t" then VerbT
  else if Ascii.eqb c "d" then VerbD
  else if Ascii.eqb c "s" then VerbS
  else if Ascii.eqb c "%" then Lit "%"
  else Unsupported.

Fixpoint parse (format : string) : list directive :=
  match format with
  | EmptyString => []
  | String c rest =>
      if Ascii.eqb c "%" then
        match rest with
        | EmptyString => [Unsupported]
        | String v rest' => verb v :: parse rest'
        end
      else Lit c :: parse rest
  end.

Fixpoint operands (ds : list directive) : Type :=
  match ds with
  | [] => string
  | Lit _ :: ds' => operands ds'
  | VerbT :: ds' => bool -> operands ds'
  | VerbD :: ds' => Z -> operands ds'
  | VerbS :: ds' => string -> operands ds'
  | Unsupported :: ds' => Empty_set -> operands ds'
  end.

(** The output is built left to right; [k] holds the text written so far,
    as the function that completes it. *)
Fixpoint doPrintf (ds : list directive) (k : string -> string) : operands ds :=
  match ds return operands ds with
  | [] => k ""
  | Lit c :: ds' => doPrintf ds' (fun s => k (String c s))
  | VerbT :: ds' => fun b => doPrintf ds' (fun s => k (fmt_bool b ++ s))
  | VerbD :: ds' => fun z => doPrintf ds' (fun s => k (fmt_int z ++ s))
  | VerbS :: ds' => fun t => doPrintf ds' (fun s => k (t ++ s))
  | Unsupported :: ds' => fun e : Empty_set => match e with end
  end.

Definition Sprintf (format : string) : operands (parse format) :=
  doPrintf (parse format) (fun s => s).

(** What [%s] prints for a nil pointer whose type has a [String] method. *)
Definition nilAngleString : string := "<nil>".

End golang.

(** ** Package [fields] *)

Module fields.

Definition SWIFT_REFLECTION_METADATA_VERSION : Z := 3.

(** [type FieldRecordFlags uint32] *)
Definition FieldRecordFlags : Type := Z.

Definition IsIndirectCase : FieldRecordFlags := 0x1.
Definition IsVar : FieldRecordFlags := 0x2.
Definition IsArtificial : FieldRecordFlags := 0x4.

(** [type FieldDescriptorKind uint16], its constants numbered by [iota]. *)
Definition FieldDescriptorKind : Type := Z.

Definition Struct : FieldDescriptorKind := 0.
Definition Class : FieldDescriptorKind := 1.
Definition Enum : FieldDescriptorKind := 2.
Definition MultiPayloadEnum : FieldDescriptorKind := 3.
Definition Protocol : FieldDescriptorKind := 4.
Definition ClassProtocol : FieldDescriptorKind := 5.
Definition ObjCProtocol : FieldDescriptorKind := 6.
Definition ObjCClass : FieldDescriptorKind := 7.

(** The eight declared kinds. *)
Definition declared_kinds : list FieldDescriptorKind :=
  [Struct; Class; Enum; MultiPayloadEnum; Protocol; ClassProtocol;
   ObjCProtocol; ObjCClass].

Record FDHeader : Type := mkFDHeader {
  MangledTypeNameOffset : Z;
  SuperclassOffset : Z;
  Kind : FieldDescriptorKind;
  FieldRecordSize : Z;
  NumFields : Z
}.

Record FieldRecord : Type := mkFieldRecord {
  FieldRecord_Name : string;
  FieldRecord_MangledType : string;
  FieldRecord_Flags : string
}.

Record FieldRecordType : Type := mkFieldRecordType {
  FieldRecordType_Flags : FieldRecordFlags;
  FieldRecordType_MangledTypeNameOffset : Z;
  FieldNameOffset : Z
}.

(** [FDHeader] is embedded, so [f.Descriptor.Kind] is the header's field. *)
Record FieldDescriptor : Type := mkFieldDescriptor {
  Header : FDHeader;
  FieldRecords : list FieldRecordType
}.

Record Field : Type := mkField {
  Address : Z;
  MangledType : string;
  SuperClass : string;
  Field_Kind : string;
  Records : list FieldRecord;
  Offset : Z;
  Descriptor : FieldDescriptor
}.

(** [f.Descriptor.Kind] *)
Definition DescriptorKind (f : Field) : FieldDescriptorKind :=
  Kind (Header (Descriptor f)).

Definition IsEnum (f : Field) : bool :=
  (DescriptorKind f =? Enum) || (DescriptorKind f =? MultiPayloadEnum).

Definition IsClass (f : Field) : bool :=
  (DescriptorKind f =? Class) || (DescriptorKind f =? ObjCClass).

Definition IsProtocol (f : Field) : bool :=
  (DescriptorKind f =? Protocol) || (DescriptorKind f =? ClassProtocol)
  || (DescriptorKind f =? ObjCProtocol).

(** A field whose descriptor has kind [k], everything else empty. *)
Definition field_of_kind (k : FieldDescriptorKind) : Field :=
  mkField 0 "" "" "" [] 0 (mkFieldDescriptor (mkFDHeader 0 0 k 0 0) []).

End fields.

(** ** Package [protocols] *)

Module protocols.
Import golang.

(** *** Protocol context-descriptor flags *)

(** [type ProtocolContextDescriptorFlags uint16]: the positions and widths
    of the protocol's fields in the kind-specific flags. *)
Definition ProtocolContextDescriptorFlags : Type := Z.

Definition HasClassConstraint : ProtocolContextDescriptorFlags := 0.
Definition HasClassConstraint_width : ProtocolContextDescriptorFlags := 1.
Definition IsResilient : ProtocolContextDescriptorFlags := 1.
Definition SpecialProtocolKind : ProtocolContextDescriptorFlags := 2.
Definition SpecialProtocolKind_width : ProtocolContextDescriptorFlags := 6.

(** Modelled from the spec: protocols.go declares the positions and widths
    above and no accessor that reads them.  The spec extracts the
    class-constraint bit (bit 0), the resilience bit (bit 1) and the 6-bit
    special-kind field (bits 2-7) of a kind-specific flag value and
    recombines them; extraction and recombination at the declared positions
    are these. *)
Definition getFlag (v pos : Z) : bool := Z.testbit v pos.

Definition getField (v pos width : Z) : Z :=
  Z.land (Z.shiftr v pos) (Z.ones width).

Definition hasClassConstraint (v : ProtocolContextDescriptorFlags) : bool :=
  getFlag v HasClassConstraint.

Definition isResilient (v : ProtocolContextDescriptorFlags) : bool :=
  getFlag v IsResilient.

Definition getSpecialProtocolKind (v : ProtocolContextDescriptorFlags) : Z :=
  getField v SpecialProtocolKind SpecialProtocolKind_width.

Definition recombine (c r : bool) (k : Z) : ProtocolContextDescriptorFlags :=
  uint16 (Z.lor (Z.lor (Z.shiftl (Z.b2z c) HasClassConstraint)
                       (Z.shiftl (Z.b2z r) IsResilient))
                (Z.shiftl k SpecialProtocolKind)).

(** Extract the three fields of [v], then put them back. *)
Definition roundtrip (v : ProtocolContextDescriptorFlags)
  : ProtocolContextDescriptorFlags :=
  recombine (hasClassConstraint v) (isResilient v) (getSpecialProtocolKind v).

(** *** Generic-requirement flags *)

(** [type GRKind uint8] *)
Definition GRKind : Type := Z.

Definition GRKindProtocol : GRKind := 0.
Definition GRKindSameType : GRKind := 1.
Definition GRKindBaseClass : GRKind := 2.
Definition GRKindSameConformance : GRKind := 3.
Definition GRKindLayout : GRKind := 0x1F.

(** Modelled from the spec: [types_string.go], the output of the [stringer]
    run that the [go:generate] line of protocols.go asks for (with
    [-trimprefix=GRKind]), is not among the sources.  By the spec a kind
    renders as its kind name and an unknown discriminant in its raw
    numeric form, which [stringer] writes as the type's name followed by the
    decimal value in parentheses. *)
Definition GRKind_String (k : GRKind) : string :=
  if k =? GRKindProtocol then "Protocol"
  else if k =? GRKindSameType then "SameType"
  else if k =? GRKindBaseClass then "BaseClass"
  else if k =? GRKindSameConformance then "SameConformance"
  else if k =? GRKindLayout then "Layout"
  else "GRKind(" ++ fmt_int k ++ ")".

(** [type GenericRequirementFlags uint32] and its methods. *)
Module GenericRequirementFlags.

Definition t : Type := Z.

Definition HasKeyArgument (f : t) : bool := negb (Z.land f 0x80 =? 0).

Definition HasExtraArgument (f : t) : bool := negb (Z.land f 0x40 =? 0).

Definition Kind (f : t) : GRKind := uint8 (Z.land f 0x1F).

Definition String (f : t) : string :=
  Sprintf "key_arg: %t, extra_arg: %t, kind: %s"
    (HasKeyArgument f) (HasExtraArgument f) (GRKind_String (Kind f)).

End GenericRequirementFlags.

Record TargetGenericRequirementDescriptor : Type :=
  mkTargetGenericRequirementDescriptor {
  GR_Flags : GenericRequirementFlags.t;
  Param : Z;
  TypeOrProtocolOrConformanceOrLayout : Z
}.

(** *** Protocol-requirement flags *)

(** [type PRKind uint8], its constants numbered by [iota]. *)
Definition PRKind : Type := Z.

Definition BaseProtocol : PRKind := 0.
Definition Method : PRKind := 1.
Definition Init : PRKind := 2.
Definition Getter : PRKind := 3.
Definition Setter : PRKind := 4.
Definition ReadCoroutine : PRKind := 5.
Definition ModifyCoroutine : PRKind := 6.
Definition AssociatedTypeAccessFunction : PRKind := 7.
Definition AssociatedConformanceAccessFunction : PRKind := 8.

(** The six kinds on which [IsFunctionImpl] looks at the async bit. *)
Definition function_kinds : list PRKind :=
  [Method; Init; Getter; Setter; ReadCoroutine; ModifyCoroutine].

(** Modelled from the spec: the [String] method of [PRKind] in the missing
    [types_string.go]; the nine kind names, and the raw numeric form for
    any other value. *)
Definition PRKind_String (k : PRKind) : string :=
  if k =? BaseProtocol then "BaseProtocol"
  else if k =? Method then "Method"
  else if k =? Init then "Init"
  else if k =? Getter then "Getter"
  else if k =? Setter then "Setter"
  else if k =? ReadCoroutine then "ReadCoroutine"
  else if k =? ModifyCoroutine then "ModifyCoroutine"
  else if k =? AssociatedTypeAccessFunction then "AssociatedTypeAccessFunction"
  else if k =? AssociatedConformanceAccessFunction
       then "AssociatedConformanceAccessFunction"
  else "PRKind(" ++ fmt_int k ++ ")".

(** [type ProtocolRequirementFlags uint32] and its methods. *)
Module ProtocolRequirementFlags.

Definition t : Type := Z.

Definition Kind (f : t) : PRKind := uint8 (Z.land f 0x0F).

Definition IsInstance (f : t) : bool := negb (Z.land f 0x10 =? 0).

Definition IsAsync (f : t) : bool := negb (Z.land f 0x20 =? 0).

Definition IsSignedWithAddress (f : t) : bool := negb (Kind f =? BaseProtocol).

Definition ExtraDiscriminator (f : t) : Z := uint16 (Z.shiftr f 16).

(** The [switch] on [f.Kind()]: six cases share one body. *)
Definition IsFunctionImpl (f : t) : bool :=
  let k := Kind f in
  if (k =? Method) || (k =? Init) || (k =? Getter) || (k =? Setter)
     || (k =? ReadCoroutine) || (k =? ModifyCoroutine)
  then negb (IsAsync f)
  else false.

Definition String (f : t) : string :=
  Sprintf
    "kind: %s, instance: %t, async: %t, signed_with_addr: %t, extra_discriminator: %d, function_impl: %t"
    (PRKind_String (Kind f))
    (IsInstance f)
    (IsAsync f)
    (IsSignedWithAddress f)
    (ExtraDiscriminator f)
    (IsFunctionImpl f).

End ProtocolRequirementFlags.

Record TargetProtocolRequirement : Type := mkTargetProtocolRequirement {
  PR_Flags : ProtocolRequirementFlags.t;
  DefaultImplementation : Z
}.

(** *** Conformance flags *)

(** [type referenceKind uint32] *)
Definition referenceKind : Type := Z.

Definition DirectTypeDescriptor : referenceKind := 0x00.
Definition IndirectTypeDescriptor : referenceKind := 0x01.
Definition DirectObjCClassName : referenceKind := 0x02.
Definition IndirectObjCClass : referenceKind := 0x03.

(** Modelled from the spec: the [String] method of [referenceKind] in the
    missing [types_string.go]; the four kind names, and the raw numeric
    form for any other value. *)
Definition referenceKind_String (k : referenceKind) : string :=
  if k =? DirectTypeDescriptor then "DirectTypeDescriptor"
  else if k =? IndirectTypeDescriptor then "IndirectTypeDescriptor"
  else if k =? DirectObjCClassName then "DirectObjCClassName"
  else if k =? IndirectObjCClass then "IndirectObjCClass"
  else "referenceKind(" ++ fmt_int k ++ ")".

(** [type ConformanceFlags uint32], its masks and shifts, and its methods. *)
Module ConformanceFlags.

Definition t : Type := Z.

Definition UnusedLowBits : t := 0x07.
Definition TypeMetadataKindMask : t := Z.shiftl 0x7 3.
Definition TypeMetadataKindShift : t := 3.
Definition IsRetroactiveMask : t := Z.shiftl 0x01 6.
Definition IsSynthesizedNonUniqueMask : t := Z.shiftl 0x01 7.
Definition NumConditionalRequirementsMask : t := Z.shiftl 0xFF 8.
Definition NumConditionalRequirementsShift : t := 8.
Definition HasResilientWitnessesMask : t := Z.shiftl 0x01 16.
Definition HasGenericWitnessTableMask : t := Z.shiftl 0x01 17.

Definition IsRetroactive (f : t) : bool :=
  negb (Z.land f IsRetroactiveMask =? 0).

Definition IsSynthesizedNonUnique (f : t) : bool :=
  negb (Z.land f IsSynthesizedNonUniqueMask =? 0).

Definition GetNumConditionalRequirements (f : t) : Z :=
  int (Z.shiftr (Z.land f NumConditionalRequirementsMask)
                NumConditionalRequirementsShift).

Definition HasResilientWitnesses (f : t) : bool :=
  negb (Z.land f HasResilientWitnessesMask =? 0).

Definition HasGenericWitnessTable (f : t) : bool :=
  negb (Z.land f HasGenericWitnessTableMask =? 0).

Definition GetTypeReferenceKind (f : t) : referenceKind :=
  uint32 (Z.shiftr (Z.land f TypeMetadataKindMask) TypeMetadataKindShift).

Definition String (f : t) : string :=
  Sprintf
    "retroactive: %t, synthesized_nonunique: %t, num_cond_reqs: %d, has_resilient_witnesses: %t, has_generic_witness_table: %t, type_reference_kind: %s"
    (IsRetroactive f)
    (IsSynthesizedNonUnique f)
    (GetNumConditionalRequirements f)
    (HasResilientWitnesses f)
    (HasGenericWitnessTable f)
    (referenceKind_String (GetTypeReferenceKind f)).

End ConformanceFlags.

Record TargetProtocolConformanceDescriptor : Type :=
  mkTargetProtocolConformanceDescriptor {
  ProtocolOffsest : Z;
  TypeRefOffsest : Z;
  WitnessTablePatternOffsest : Z;
  Conformance_Flags : ConformanceFlags.t
}.

(** *** Descriptors and protocols *)

Record Descriptor : Type := mkDescriptor {
  Flags : Z;
  ParentOffset : Z;
  NameOffset : Z;
  NumRequirementsInSignature : Z;
  NumRequirements : Z;
  AssociatedTypeNamesOffset : Z
}.

(** [Parent *Protocol]: a pointer, nil or to a protocol.  An inductive type
    holds the finite parent chains; a cyclic chain, on which Go's [String]
    does not return, is not a value of it. *)
#[warnings="-register-all"]
Inductive Protocol : Type :=
  mkProtocol (Name : string) (AssociatedType : string)
             (Parent : option Protocol) (Desc : Descriptor)
             (SignatureRequirements : list TargetGenericRequirementDescriptor)
             (Requirements : list TargetProtocolRequirement).

Definition Name (p : Protocol) : string :=
  let 'mkProtocol n _ _ _ _ _ := p in n.
Definition AssociatedType (p : Protocol) : string :=
  let 'mkProtocol _ a _ _ _ _ := p in a.
Definition Parent (p : Protocol) : option Protocol :=
  let 'mkProtocol _ _ q _ _ _ := p in q.
Definition Desc (p : Protocol) : Descriptor :=
  let 'mkProtocol _ _ _ d _ _ := p in d.
Definition SignatureRequirements (p : Protocol)
  : list TargetGenericRequirementDescriptor :=
  let 'mkProtocol _ _ _ _ s _ := p in s.
Definition Requirements (p : Protocol) : list TargetProtocolRequirement :=
  let 'mkProtocol _ _ _ _ _ r := p in r.

(** The type [types.ContextDescriptorFlags] of [Descriptor.Flags] lives in
    the package [types/swift/types], which is not among the sources.  What
    protocols.go uses of it are parameters here: its [KindSpecific] method,
    and the text that [%s] writes for a value of the type. *)
Section ContextDescriptorFlags.

Variable KindSpecific : Z -> Z.
Variable ContextDescriptorFlags_String : Z -> string.

Definition GetProtocolContextDescriptorFlags (d : Descriptor)
  : ProtocolContextDescriptorFlags :=
  uint16 (KindSpecific (Flags d)).

Definition Descriptor_String (d : Descriptor) : string :=
  Sprintf
    ("Flags: (%s)" ++ LF ++
     "NumRequirementsInSignature: %d" ++ LF ++
     "NumRequirements:            %d")
    (ContextDescriptorFlags_String (Flags d))
    (NumRequirementsInSignature d)
    (NumRequirements d).

(** [%s] of the pointer [p.Parent]: the pointed protocol's [String], or
    [<nil>] for a nil pointer. *)
Fixpoint Protocol_String (p : Protocol) : string :=
  match p with
  | mkProtocol name assoc parent d _ _ =>
      let associateType :=
        if negb (AssociatedTypeNamesOffset d =? 0)
        then Sprintf ("AssociatedType: %s" ++ LF) assoc
        else "" in
      let parent' :=
        if negb (ParentOffset d =? 0)
        then Sprintf (LF ++ "---" ++ LF ++ "Parent %s" ++ LF)
               match parent with
               | Some q => Protocol_String q
               | None => nilAngleString
               end
        else "" in
      Sprintf ("Name:           %s" ++ LF ++ "%s" ++ "%s%s")
        name associateType (Descriptor_String d) parent'
  end.

(** What [%s] writes for [p.Parent]. *)
Definition Parent_String (p : Protocol) : string :=
  match Parent p with
  | Some q => Protocol_String q
  | None => nilAngleString
  end.

End ContextDescriptorFlags.

(** The kinds that have a name. *)
Definition named_GRKinds : list GRKind :=
  [GRKindProtocol; GRKindSameType; GRKindBaseClass; GRKindSameConformance;
   GRKindLayout].

Definition named_referenceKinds : list referenceKind :=
  [DirectTypeDescriptor; IndirectTypeDescriptor; DirectObjCClassName;
   IndirectObjCClass].

End protocols.

(** ** The rendering contract *)

Module rendering.
Import golang.

(** Comma-separated [key: value] pairs, in the order of the list. *)
Definition key_values (kvs : list (string * string)) : string :=
  String.concat ", " (map (fun kv => fst kv ++ ": " ++ snd kv) kvs).

(** The rendering of a protocol: the [Name] line, the [AssociatedType] line
    when there is one, the [Flags] line and the two counts, and the [---]
    separator with the [Parent] rendering when there is one. *)
Definition layout (name : string) (assoc : option string) (flags : string)
    (numsig numreq : Z) (parent : option string) : string :=
  "Name:           " ++ name ++ LF ++
  match assoc with
  | Some a => "AssociatedType: " ++ a ++ LF
  | None => ""
  end ++
  "Flags: (" ++ flags ++ ")" ++ LF ++
  "NumRequirementsInSignature: " ++ fmt_int numsig ++ LF ++
  "NumRequirements:            " ++ fmt_int numreq ++
  match parent with
  | Some r => LF ++ "---" ++ LF ++ "Parent " ++ r ++ LF
  | None => ""
  end.

End rendering.

(** ** Sample values *)

Module samples.
Import protocols.

(** [Getter], instance, not async, extra discriminator 0x1234. *)
Definition getter_word : ProtocolRequirementFlags.t := 0x12340013.

(** A protocol with no parent and no associated types, and one requirement:
    an instance method. *)
Definition base_protocol : Protocol :=
  mkProtocol "Base" "" None (mkDescriptor 0x43 0 8 0 1 0) []
    [mkTargetProtocolRequirement 0x11 0].

(** A protocol with associated types and [base_protocol] as its parent. *)
Definition child_protocol : Protocol :=
  mkProtocol "Child" "A B" (Some base_protocol)
    (mkDescriptor 0x43 (-64) 8 2 3 24)
    [mkTargetGenericRequirementDescriptor 0x80 4 8;
     mkTargetGenericRequirementDescriptor 0x9F 4 1]
    [mkTargetProtocolRequirement 0x00 0;
     mkTargetProtocolRequirement 0x07 0;
     mkTargetProtocolRequirement 0x13 0].

(** A header that has a parent offset, with a nil [Parent] pointer. *)
Definition orphan_protocol : Protocol :=
  mkProtocol "Orphan" "" None (mkDescriptor 0x43 (-64) 8 0 0 0) [] [].

(** A rendering of context-descriptor flags, for the samples. *)
Definition sample_flags (flags : Z) : string := "kind: " ++ golang.fmt_int flags.

End samples.

(** ** Texts *)

Module text.



End text.


(** ** The samples, evaluated *)

Section Samples.

Import golang protocols samples.

Example getter_word_rendering :
  ProtocolRequirementFlags.String getter_word =
  "kind: Getter, instance: true, async: false, signed_with_addr: true, extra_discriminator: 4660, function_impl: true".
Proof. reflexivity. Qed.

Example generic_requirement_renderings :
  map GenericRequirementFlags.String [0x80; 0x9F; 0x45] =
  ["key_arg: true, extra_arg: false, kind: Protocol";
   "key_arg: true, extra_arg: false, kind: Layout";
   "key_arg: false, extra_arg: true, kind: GRKind(5)"].
Proof. reflexivity. Qed.

Example conformance_rendering :
  ConformanceFlags.String 0x31234 =
  "retroactive: false, synthesized_nonunique: false, num_cond_reqs: 18, has_resilient_witnesses: true, has_generic_witness_table: true, type_reference_kind: referenceKind(6)".
Proof. reflexivity. Qed.

Example base_protocol_rendering :
  Protocol_String sample_flags base_protocol =
  "Name:           Base" ++ LF ++
  "Flags: (kind: 67)" ++ LF ++
  "NumRequirementsInSignature: 0" ++ LF ++
  "NumRequirements:            1".
Proof. reflexivity. Qed.

Example child_protocol_rendering :
  Protocol_String sample_flags child_protocol =
  "Name:           Child" ++ LF ++
  "AssociatedType: A B" ++ LF ++
  "Flags: (kind: 67)" ++ LF ++
  "NumRequirementsInSignature: 2" ++ LF ++
  "NumRequirements:            3" ++ LF ++
  "---" ++ LF ++
  "Parent " ++ Protocol_String sample_flags base_protocol ++ LF.
Proof. reflexivity. Qed.

Example orphan_protocol_rendering :
  Protocol_String sample_flags orphan_protocol =
  "Name:           Orphan" ++ LF ++
  "Flags: (kind: 67)" ++ LF ++
  "NumRequirementsInSignature: 0" ++ LF ++
  "NumRequirements:            0" ++ LF ++
  "---" ++ LF ++
  "Parent <nil>" ++ LF.
Proof. reflexivity. Qed.

Example base_protocol_requirement_kinds :
  map (fun r => ProtocolRequirementFlags.Kind (PR_Flags r))
      (Requirements base_protocol) = [Method].
Proof. reflexivity. Qed.

Example enum_field_is_enum :
  fields.IsEnum (fields.field_of_kind fields.Enum) = true /\
  fields.IsClass (fields.field_of_kind fields.Enum) = false /\
  fields.IsProtocol (fields.field_of_kind fields.Enum) = false.
Proof. repeat split. Qed.

End Samples.

(** ** Package [fields]: the classification predicates *)

Section FieldKinds.

Import fields.

Variable f : Field.

Let k : FieldDescriptorKind := DescriptorKind f.

Lemma IsEnum_iff : IsEnum f = true <-> k = Enum \/ k = MultiPayloadEnum.
Proof.
  unfold IsEnum; fold k.
  rewrite orb_true_iff, !Z.eqb_eq; reflexivity.
Qed.

Lemma IsClass_iff : IsClass f = true <-> k = Class \/ k = ObjCClass.
Proof.
  unfold IsClass; fold k.
  rewrite orb_true_iff, !Z.eqb_eq; reflexivity.
Qed.

Lemma IsProtocol_iff :
  IsProtocol f = true <-> k = Protocol \/ k = ClassProtocol \/ k = ObjCProtocol.
Proof.
  unfold IsProtocol; fold k.
  rewrite !orb_true_iff, !Z.eqb_eq; tauto.
Qed.

End FieldKinds.

(** C7. For every [Field], [IsEnum] is true exactly when the descriptor's
    kind is [Enum] or [MultiPayloadEnum], [IsClass] exactly when it is
    [Class] or [ObjCClass], and [IsProtocol] exactly when it is [Protocol],
    [ClassProtocol] or [ObjCProtocol]. *)
Theorem C7_field_classification (f : fields.Field) :
  (fields.IsEnum f = true <->
     fields.DescriptorKind f = fields.Enum \/
     fields.DescriptorKind f = fields.MultiPayloadEnum) /\
  (fields.IsClass f = true <->
     fields.DescriptorKind f = fields.Class \/
     fields.DescriptorKind f = fields.ObjCClass) /\
  (fields.IsProtocol f = true <->
     fields.DescriptorKind f = fields.Protocol \/
     fields.DescriptorKind f = fields.ClassProtocol \/
     fields.DescriptorKind f = fields.ObjCProtocol).
Proof.
  split; [apply IsEnum_iff | split; [apply IsClass_iff | apply IsProtocol_iff]].
Qed.

Lemma C7_field_classification_witness :
  fields.IsEnum (fields.field_of_kind fields.MultiPayloadEnum) = true /\
  fields.IsClass (fields.field_of_kind fields.ObjCClass) = true /\
  fields.IsProtocol (fields.field_of_kind fields.ClassProtocol) = true.
Proof.
  split; [| split].
  - apply (proj1 (C7_field_classification _)); right; reflexivity.
  - apply (proj1 (proj2 (C7_field_classification _))); right; reflexivity.
  - apply (proj2 (proj2 (C7_field_classification _))); right; left; reflexivity.
Defined.

(** C9. For every [Field], no two of [IsEnum], [IsClass] and [IsProtocol]
    are true together, and all three are false when the descriptor's kind
    is [Struct] or is none of the eight declared kinds. *)
Theorem C9_field_predicates_exclusive (f : fields.Field) :
  (fields.IsEnum f && fields.IsClass f = false) /\
  (fields.IsEnum f && fields.IsProtocol f = false) /\
  (fields.IsClass f && fields.IsProtocol f = false) /\
  (fields.DescriptorKind f = fields.Struct \/
   ~ In (fields.DescriptorKind f) fields.declared_kinds ->
   fields.IsEnum f = false /\ fields.IsClass f = false /\
   fields.IsProtocol f = false).
Proof.
  unfold fields.IsEnum, fields.IsClass, fields.IsProtocol,
    fields.declared_kinds.
  generalize (fields.DescriptorKind f) as k; intros k.
  unfold fields.Struct, fields.Class, fields.Enum, fields.MultiPayloadEnum,
    fields.Protocol, fields.ClassProtocol, fields.ObjCProtocol,
    fields.ObjCClass.
  cbn [In].
  repeat match goal with
         | |- context [k =? ?c] => destruct (Z.eqb_spec k c) as [-> | ?]
         end;
    cbn [Z.eqb Pos.eqb andb orb];
    (split; [| split; [| split]]); try reflexivity;
    intros [Hs | Hn]; repeat split; try reflexivity;
    exfalso; solve [lia | apply Hn; lia].
Qed.

Lemma C9_field_predicates_exclusive_witness :
  fields.IsEnum (fields.field_of_kind 8) = false /\
  fields.IsClass (fields.field_of_kind 8) = false /\
  fields.IsProtocol (fields.field_of_kind 8) = false.
Proof.
  apply (proj2 (proj2 (proj2 (C9_field_predicates_exclusive _)))).
  right; cbn; intuition discriminate.
Defined.

(** ** Bit fields of a packed word *)

Section BitFields.

Import golang.

Lemma slice_bits f pos width i :
  0 <= pos -> 0 <= width -> 0 <= i ->
  Z.testbit (slice f pos width) i =
  if i <? width then Z.testbit f (i + pos) else false.
Proof.
  intros Hp Hw Hi; unfold slice.
  rewrite <- Z.shiftr_div_pow2 by assumption.
  destruct (Z.ltb_spec i width).
  - rewrite Z.mod_pow2_bits_low by lia.
    apply Z.shiftr_spec; assumption.
  - apply Z.mod_pow2_bits_high; lia.
Qed.

Lemma slice_range f pos width :
  0 <= width -> 0 <= slice f pos width < 2 ^ width.
Proof.
  intros Hw; unfold slice.
  apply Z.mod_pos_bound, Z.pow_pos_nonneg; lia.
Qed.

(** A field depends on the bits of its own range only. *)
Lemma slice_ext f g pos width :
  0 <= pos -> 0 <= width ->
  (forall i, pos <= i < pos + width -> Z.testbit f i = Z.testbit g i) ->
  slice f pos width = slice g pos width.
Proof.
  intros Hp Hw Hfg.
  apply Z.bits_inj'; intros i Hi.
  rewrite !slice_bits by assumption.
  destruct (Z.ltb_spec i width); [apply Hfg; lia | reflexivity].
Qed.

(** Masking with [width] ones shifted to [pos], then shifting down. *)
Lemma shiftr_land_mask f pos width :
  0 <= pos -> 0 <= width ->
  Z.shiftr (Z.land f (Z.shiftl (Z.ones width) pos)) pos = slice f pos width.
Proof.
  intros Hp Hw.
  apply Z.bits_inj'; intros i Hi.
  rewrite slice_bits, Z.shiftr_spec, Z.land_spec, Z.shiftl_spec by lia.
  replace (i + pos - pos) with i by lia.
  destruct (Z.ltb_spec i width).
  - rewrite Z.ones_spec_low by lia. apply andb_true_r.
  - rewrite Z.ones_spec_high by lia. apply andb_false_r.
Qed.

Lemma land_ones_slice f width :
  0 <= width -> Z.land f (Z.ones width) = slice f 0 width.
Proof.
  intros Hw; unfold slice.
  rewrite Z.land_ones, Z.pow_0_r, Z.div_1_r by assumption; reflexivity.
Qed.

(** A test against a one-bit mask reads that bit. *)
Lemma land_bit_test f n :
  0 <= n -> negb (Z.land f (2 ^ n) =? 0) = Z.testbit f n.
Proof.
  intros Hn.
  destruct (Z.testbit f n) eqn:E.
  - apply negb_true_iff, Z.eqb_neq; intros H0.
    assert (Hb : Z.testbit (Z.land f (2 ^ n)) n = true)
      by (rewrite Z.land_spec, E, Z.pow2_bits_true by assumption; reflexivity).
    rewrite H0, Z.bits_0 in Hb; discriminate.
  - apply negb_false_iff, Z.eqb_eq.
    apply Z.bits_inj'; intros i Hi.
    rewrite Z.land_spec, Z.bits_0, Z.pow2_bits_eqb by assumption.
    destruct (Z.eqb_spec n i) as [<- |]; [rewrite E |]; auto using andb_false_r.
Qed.

(** A word put together from a low part and what lies above it. *)
Lemma div_pack lo hi p :
  0 <= p -> 0 <= lo < 2 ^ p -> (lo + 2 ^ p * hi) / 2 ^ p = hi.
Proof.
  intros Hp Hlo.
  rewrite (Z.mul_comm (2 ^ p)), Z.div_add by lia.
  rewrite Z.div_small by assumption; reflexivity.
Qed.

Lemma slice_pack lo hi p w :
  0 <= p -> 0 <= lo < 2 ^ p -> slice (lo + 2 ^ p * hi) p w = hi mod 2 ^ w.
Proof.
  intros Hp Hlo; unfold slice.
  rewrite div_pack by assumption; reflexivity.
Qed.

Lemma slice_low lo hi w :
  0 <= w -> 0 <= lo < 2 ^ w -> slice (lo + 2 ^ w * hi) 0 w = lo.
Proof.
  intros Hw Hlo; unfold slice.
  rewrite Z.pow_0_r, Z.div_1_r.
  rewrite (Z.mul_comm (2 ^ w)), Z.mod_add by lia.
  apply Z.mod_small; assumption.
Qed.

Lemma testbit_pack lo hi p :
  0 <= p -> 0 <= lo < 2 ^ p -> Z.testbit (lo + 2 ^ p * hi) p = Z.odd hi.
Proof.
  intros Hp Hlo.
  rewrite Z.testbit_odd, Z.shiftr_div_pow2, div_pack by assumption.
  reflexivity.
Qed.

Lemma odd_b2z_double b z : Z.odd (Z.b2z b + 2 * z) = b.
Proof. rewrite Z.odd_add_mul_2; destruct b; reflexivity. Qed.

Lemma agree_on_sound a b lo n :
  agree_on a b lo n = true ->
  forall i, lo <= i < lo + Z.of_nat n -> Z.testbit a i = Z.testbit b i.
Proof.
  unfold agree_on; intros H i Hi.
  rewrite forallb_forall in H.
  specialize (H (Z.to_nat (i - lo))).
  rewrite Z2Nat.id in H by lia.
  replace (lo + (i - lo)) with i in H by lia.
  apply eqb_prop, H, in_seq; lia.
Qed.

Lemma to_unsigned_small w z :
  0 <= z < 2 ^ w -> to_unsigned w z = z.
Proof. intros H; unfold to_unsigned; apply Z.mod_small; exact H. Qed.

Lemma int_small z : 0 <= z < 2 ^ 63 -> int z = z.
Proof.
  intros H; unfold int, to_signed.
  rewrite Z.mod_small; lia.
Qed.

End BitFields.

(** ** Package [protocols]: what each decoder reads *)

Section Decoders.

Import golang protocols.

Lemma PR_Kind_slice f : ProtocolRequirementFlags.Kind f = slice f 0 4.
Proof.
  unfold ProtocolRequirementFlags.Kind, uint8.
  change 0x0F with (Z.ones 4).
  rewrite land_ones_slice by lia.
  apply to_unsigned_small.
  pose proof (slice_range f 0 4); lia.
Qed.

Lemma PR_IsInstance_bit f :
  ProtocolRequirementFlags.IsInstance f = Z.testbit f 4.
Proof. apply (land_bit_test f 4); lia. Qed.

Lemma PR_IsAsync_bit f : ProtocolRequirementFlags.IsAsync f = Z.testbit f 5.
Proof. apply (land_bit_test f 5); lia. Qed.

Lemma PR_ExtraDiscriminator_slice f :
  ProtocolRequirementFlags.ExtraDiscriminator f = slice f 16 16.
Proof.
  unfold ProtocolRequirementFlags.ExtraDiscriminator, uint16, to_unsigned, slice.
  rewrite Z.shiftr_div_pow2 by lia; reflexivity.
Qed.

Lemma GR_Kind_slice f : GenericRequirementFlags.Kind f = slice f 0 5.
Proof.
  unfold GenericRequirementFlags.Kind, uint8.
  change 0x1F with (Z.ones 5).
  rewrite land_ones_slice by lia.
  apply to_unsigned_small.
  pose proof (slice_range f 0 5); lia.
Qed.

Lemma GetNumConditionalRequirements_slice f :
  ConformanceFlags.GetNumConditionalRequirements f = slice f 8 8.
Proof.
  unfold ConformanceFlags.GetNumConditionalRequirements,
    ConformanceFlags.NumConditionalRequirementsMask,
    ConformanceFlags.NumConditionalRequirementsShift.
  change 0xFF with (Z.ones 8).
  rewrite shiftr_land_mask by lia.
  apply int_small.
  pose proof (slice_range f 8 8); lia.
Qed.

Lemma GetTypeReferenceKind_slice f :
  ConformanceFlags.GetTypeReferenceKind f = slice f 3 3.
Proof.
  unfold ConformanceFlags.GetTypeReferenceKind,
    ConformanceFlags.TypeMetadataKindMask,
    ConformanceFlags.TypeMetadataKindShift, uint32.
  change 0x7 with (Z.ones 3).
  rewrite shiftr_land_mask by lia.
  apply to_unsigned_small.
  pose proof (slice_range f 3 3); lia.
Qed.

Lemma IsFunctionImpl_cases f :
  (In (ProtocolRequirementFlags.Kind f) function_kinds /\
   ProtocolRequirementFlags.IsFunctionImpl f =
     negb (ProtocolRequirementFlags.IsAsync f)) \/
  (~ In (ProtocolRequirementFlags.Kind f) function_kinds /\
   ProtocolRequirementFlags.IsFunctionImpl f = false).
Proof.
  unfold ProtocolRequirementFlags.IsFunctionImpl, function_kinds.
  cbv zeta.
  set (k := ProtocolRequirementFlags.Kind f).
  destruct (Z.eqb_spec k Method) as [-> | H1]; [left; cbn; auto |].
  destruct (Z.eqb_spec k Init) as [-> | H2]; [left; cbn; auto |].
  destruct (Z.eqb_spec k Getter) as [-> | H3]; [left; cbn; auto |].
  destruct (Z.eqb_spec k Setter) as [-> | H4]; [left; cbn; auto 6 |].
  destruct (Z.eqb_spec k ReadCoroutine) as [-> | H5]; [left; cbn; auto 7 |].
  destruct (Z.eqb_spec k ModifyCoroutine) as [-> | H6]; [left; cbn; auto 8 |].
  right; split; [| reflexivity].
  cbn [In]; intros H; decompose [or] H; auto.
Qed.

End Decoders.

(** ** Protocol-requirement flags *)

Section ProtocolRequirement.

Import golang protocols.
Import ProtocolRequirementFlags.

(** C2. A 32-bit protocol-requirement flag word whose low 4 bits encode
    [Getter], whose instance bit (0x10) is set, whose async bit (0x20) is
    clear and whose upper 16 bits are 0x1234 decodes to exactly
    [Kind = Getter], [IsInstance = true], [IsAsync = false],
    [ExtraDiscriminator = 0x1234] and [IsFunctionImpl = true]. *)
Theorem C2_decode_getter_word (f : t) :
  is_unsigned 32 f ->
  slice f 0 4 = Getter ->
  Z.testbit f 4 = true ->
  Z.testbit f 5 = false ->
  slice f 16 16 = 0x1234 ->
  Kind f = Getter /\
  IsInstance f = true /\
  IsAsync f = false /\
  ExtraDiscriminator f = 0x1234 /\
  IsFunctionImpl f = true.
Proof.
  intros _ Hkind Hinst Hasync Hextra.
  assert (Hk : Kind f = Getter) by (rewrite PR_Kind_slice; exact Hkind).
  assert (Ha : IsAsync f = false) by (rewrite PR_IsAsync_bit; exact Hasync).
  repeat split.
  - exact Hk.
  - rewrite PR_IsInstance_bit; exact Hinst.
  - exact Ha.
  - rewrite PR_ExtraDiscriminator_slice; exact Hextra.
  - unfold IsFunctionImpl; rewrite Hk, Ha; reflexivity.
Qed.

Lemma C2_decode_getter_word_witness :
  Kind 0x12340013 = Getter /\
  IsInstance 0x12340013 = true /\
  IsAsync 0x12340013 = false /\
  ExtraDiscriminator 0x12340013 = 0x1234 /\
  IsFunctionImpl 0x12340013 = true.
Proof.
  apply (C2_decode_getter_word 0x12340013).
  - unfold is_unsigned; lia.
  - reflexivity.
  - reflexivity.
  - reflexivity.
  - reflexivity.
Defined.

(** C3. For every 32-bit protocol-requirement flag word, [IsFunctionImpl]
    is true exactly when the decoded kind is one of [Method], [Init],
    [Getter], [Setter], [ReadCoroutine], [ModifyCoroutine] and [IsAsync] is
    false; for every other decoded kind it is false whatever the async
    bit. *)
Theorem C3_IsFunctionImpl_spec (f : t) :
  is_unsigned 32 f ->
  (IsFunctionImpl f = true <->
     In (Kind f) function_kinds /\ IsAsync f = false) /\
  (~ In (Kind f) function_kinds -> IsFunctionImpl f = false).
Proof.
  intros _.
  destruct (IsFunctionImpl_cases f) as [[Hin Heq] | [Hout Heq]];
    rewrite Heq; split.
  - rewrite negb_true_iff; tauto.
  - intros Hout; contradiction.
  - split; [discriminate | tauto].
  - reflexivity.
Qed.

Lemma C3_IsFunctionImpl_spec_witness :
  IsFunctionImpl 0x27 = false /\ IsFunctionImpl 0x13 = true.
Proof.
  split.
  - apply (proj2 (C3_IsFunctionImpl_spec 0x27 ltac:(unfold is_unsigned; lia))).
    cbn; intuition discriminate.
  - apply (proj1 (C3_IsFunctionImpl_spec 0x13 ltac:(unfold is_unsigned; lia))).
    split; [cbn; auto | reflexivity].
Defined.

(** C10. Each sub-field decoder of the protocol-requirement flag word
    reads its own bit range only: two words that agree on bits 0-3 have
    the same [Kind], on bit 4 the same [IsInstance], on bit 5 the same
    [IsAsync], on bits 16-31 the same [ExtraDiscriminator]; and every
    combination of a 4-bit kind, the two booleans and a 16-bit
    discriminator is decoded from some word, so the sub-fields are
    independent of each other. *)
Theorem C10_subfields_independent :
  (forall f g : t,
     is_unsigned 32 f -> is_unsigned 32 g ->
     ((forall i, 0 <= i < 4 -> Z.testbit f i = Z.testbit g i) ->
      Kind f = Kind g) /\
     (Z.testbit f 4 = Z.testbit g 4 -> IsInstance f = IsInstance g) /\
     (Z.testbit f 5 = Z.testbit g 5 -> IsAsync f = IsAsync g) /\
     ((forall i, 16 <= i < 32 -> Z.testbit f i = Z.testbit g i) ->
      ExtraDiscriminator f = ExtraDiscriminator g)) /\
  (forall (k : PRKind) (inst async : bool) (extra : Z),
     is_unsigned 4 k -> is_unsigned 16 extra ->
     exists f : t,
       is_unsigned 32 f /\ Kind f = k /\ IsInstance f = inst /\
       IsAsync f = async /\ ExtraDiscriminator f = extra).
Proof.
  split.
  - intros f g _ _; repeat split.
    + intros H; rewrite !PR_Kind_slice.
      apply slice_ext; [lia | lia | exact H].
    + intros H; rewrite !PR_IsInstance_bit; exact H.
    + intros H; rewrite !PR_IsAsync_bit; exact H.
    + intros H; rewrite !PR_ExtraDiscriminator_slice.
      apply slice_ext; [lia | lia | exact H].
  - intros k inst async extra Hk He.
    unfold is_unsigned in *.
    exists (k + 2 ^ 4 * (Z.b2z inst + 2 * (Z.b2z async + 2 * (2 ^ 10 * extra)))).
    assert (Hi : 0 <= Z.b2z inst < 2) by (destruct inst; cbn; lia).
    assert (Ha : 0 <= Z.b2z async < 2) by (destruct async; cbn; lia).
    rewrite PR_Kind_slice, PR_IsInstance_bit, PR_IsAsync_bit,
      PR_ExtraDiscriminator_slice.
    repeat split.
    + lia.
    + lia.
    + apply slice_low; lia.
    + rewrite testbit_pack by lia. apply odd_b2z_double.
    + replace (k + 2 ^ 4 * (Z.b2z inst + 2 * (Z.b2z async + 2 * (2 ^ 10 * extra))))
        with ((k + 2 ^ 4 * Z.b2z inst)
              + 2 ^ 5 * (Z.b2z async + 2 * (2 ^ 10 * extra))) by lia.
      rewrite testbit_pack by lia. apply odd_b2z_double.
    + replace (k + 2 ^ 4 * (Z.b2z inst + 2 * (Z.b2z async + 2 * (2 ^ 10 * extra))))
        with ((k + 2 ^ 4 * (Z.b2z inst + 2 * Z.b2z async)) + 2 ^ 16 * extra)
        by lia.
      rewrite slice_pack by lia. apply Z.mod_small; lia.
Qed.

Lemma C10_subfields_independent_witness :
  Kind 0x12340013 = Kind 0x4321FFD3 /\
  ExtraDiscriminator 0x12340013 = ExtraDiscriminator 0x1234ABCD.
Proof.
  split.
  - apply (proj1 C10_subfields_independent 0x12340013 0x4321FFD3);
      [unfold is_unsigned; lia | unfold is_unsigned; lia |].
    apply (agree_on_sound _ _ 0 4); reflexivity.
  - apply (proj1 C10_subfields_independent 0x12340013 0x1234ABCD);
      [unfold is_unsigned; lia | unfold is_unsigned; lia |].
    apply (agree_on_sound _ _ 16 16); reflexivity.
Defined.

End ProtocolRequirement.

(** ** Conformance flags *)

Section Conformance.

Import golang protocols.
Import ConformanceFlags.

(** C4. For every 32-bit [ConformanceFlags] value,
    [GetNumConditionalRequirements] is bits 8-15 of the value read as an
    unsigned integer, between 0 and 255, and a change of the bits outside
    positions 8-15 leaves it as it is. *)
Theorem C4_num_conditional_requirements (f : t) :
  is_unsigned 32 f ->
  GetNumConditionalRequirements f = slice f 8 8 /\
  0 <= GetNumConditionalRequirements f <= 255 /\
  (forall i, 0 <= i ->
     Z.testbit (GetNumConditionalRequirements f) i =
     if i <? 8 then Z.testbit f (i + 8) else false) /\
  (forall g : t,
     is_unsigned 32 g ->
     (forall i, 8 <= i < 16 -> Z.testbit g i = Z.testbit f i) ->
     GetNumConditionalRequirements g = GetNumConditionalRequirements f).
Proof.
  intros _.
  rewrite GetNumConditionalRequirements_slice.
  split; [reflexivity | split; [| split]].
  - pose proof (slice_range f 8 8); lia.
  - intros i Hi; apply slice_bits; lia.
  - intros g _ Hfg.
    rewrite GetNumConditionalRequirements_slice.
    apply slice_ext; [lia | lia | exact Hfg].
Qed.

Lemma C4_num_conditional_requirements_witness :
  GetNumConditionalRequirements 0xFFFFABFF = 0xAB /\
  GetNumConditionalRequirements 0x0000AB00 =
  GetNumConditionalRequirements 0xFFFFABFF.
Proof.
  pose (H := C4_num_conditional_requirements 0xFFFFABFF
               ltac:(unfold is_unsigned; lia)).
  split.
  - exact (proj1 H).
  - apply (proj2 (proj2 (proj2 H)) 0x0000AB00);
      [unfold is_unsigned; lia |].
    apply (agree_on_sound _ _ 8 8); reflexivity.
Defined.

End Conformance.

(** ** Renderings *)

Section Renderings.

Import golang protocols rendering.

Lemma append_empty_r (s : string) : s ++ "" = s.
Proof. induction s as [| c s IH]; cbn; [| rewrite IH]; reflexivity. Qed.

Lemma append_assoc (s1 s2 s3 : string) : (s1 ++ s2) ++ s3 = s1 ++ s2 ++ s3.
Proof. induction s1 as [| c s1 IH]; cbn; [| rewrite IH]; reflexivity. Qed.

Lemma GenericRequirementFlags_String_pairs f :
  GenericRequirementFlags.String f =
  key_values
    [("key_arg", fmt_bool (GenericRequirementFlags.HasKeyArgument f));
     ("extra_arg", fmt_bool (GenericRequirementFlags.HasExtraArgument f));
     ("kind", GRKind_String (GenericRequirementFlags.Kind f))].
Proof.
  unfold GenericRequirementFlags.String.
  generalize (GenericRequirementFlags.HasKeyArgument f) as a.
  generalize (GenericRequirementFlags.HasExtraArgument f) as b.
  generalize (GRKind_String (GenericRequirementFlags.Kind f)) as k.
  intros k b a.
  cbn.
  rewrite append_empty_r. reflexivity.
Qed.

Lemma ProtocolRequirementFlags_String_pairs f :
  ProtocolRequirementFlags.String f =
  key_values
    [("kind", PRKind_String (ProtocolRequirementFlags.Kind f));
     ("instance", fmt_bool (ProtocolRequirementFlags.IsInstance f));
     ("async", fmt_bool (ProtocolRequirementFlags.IsAsync f));
     ("signed_with_addr",
      fmt_bool (ProtocolRequirementFlags.IsSignedWithAddress f));
     ("extra_discriminator",
      fmt_int (ProtocolRequirementFlags.ExtraDiscriminator f));
     ("function_impl", fmt_bool (ProtocolRequirementFlags.IsFunctionImpl f))].
Proof.
  unfold ProtocolRequirementFlags.String.
  generalize (PRKind_String (ProtocolRequirementFlags.Kind f)) as k.
  generalize (ProtocolRequirementFlags.IsInstance f) as i.
  generalize (ProtocolRequirementFlags.IsAsync f) as a.
  generalize (ProtocolRequirementFlags.IsSignedWithAddress f) as s.
  generalize (ProtocolRequirementFlags.ExtraDiscriminator f) as e.
  generalize (ProtocolRequirementFlags.IsFunctionImpl f) as fi.
  intros fi e s a i k.
  cbn -[fmt_int].
  rewrite append_empty_r. reflexivity.
Qed.

Lemma ConformanceFlags_String_pairs f :
  ConformanceFlags.String f =
  key_values
    [("retroactive", fmt_bool (ConformanceFlags.IsRetroactive f));
     ("synthesized_nonunique",
      fmt_bool (ConformanceFlags.IsSynthesizedNonUnique f));
     ("num_cond_reqs",
      fmt_int (ConformanceFlags.GetNumConditionalRequirements f));
     ("has_resilient_witnesses",
      fmt_bool (ConformanceFlags.HasResilientWitnesses f));
     ("has_generic_witness_table",
      fmt_bool (ConformanceFlags.HasGenericWitnessTable f));
     ("type_reference_kind",
      referenceKind_String (ConformanceFlags.GetTypeReferenceKind f))].
Proof.
  unfold ConformanceFlags.String.
  generalize (ConformanceFlags.IsRetroactive f) as r.
  generalize (ConformanceFlags.IsSynthesizedNonUnique f) as s.
  generalize (ConformanceFlags.GetNumConditionalRequirements f) as n.
  generalize (ConformanceFlags.HasResilientWitnesses f) as w.
  generalize (ConformanceFlags.HasGenericWitnessTable f) as g.
  generalize (referenceKind_String (ConformanceFlags.GetTypeReferenceKind f))
    as k.
  intros k g w n s r.
  cbn -[fmt_int].
  rewrite append_empty_r. reflexivity.
Qed.

(** C5. The [String] rendering of a flag word is the comma-separated list
    of [key: value] pairs in the fixed order [key_arg], [extra_arg], [kind]
    for generic-requirement flags; [kind], [instance], [async],
    [signed_with_addr], [extra_discriminator], [function_impl] for
    protocol-requirement flags; [retroactive], [synthesized_nonunique],
    [num_cond_reqs], [has_resilient_witnesses], [has_generic_witness_table],
    [type_reference_kind] for conformance flags; and each value is the text
    of what the decoder of that name returns on the word. *)
Theorem C5_flag_renderings
    (g : GenericRequirementFlags.t) (r : ProtocolRequirementFlags.t)
    (c : ConformanceFlags.t) :
  GenericRequirementFlags.String g =
    key_values
      [("key_arg", fmt_bool (GenericRequirementFlags.HasKeyArgument g));
       ("extra_arg", fmt_bool (GenericRequirementFlags.HasExtraArgument g));
       ("kind", GRKind_String (GenericRequirementFlags.Kind g))] /\
  ProtocolRequirementFlags.String r =
    key_values
      [("kind", PRKind_String (ProtocolRequirementFlags.Kind r));
       ("instance", fmt_bool (ProtocolRequirementFlags.IsInstance r));
       ("async", fmt_bool (ProtocolRequirementFlags.IsAsync r));
       ("signed_with_addr",
        fmt_bool (ProtocolRequirementFlags.IsSignedWithAddress r));
       ("extra_discriminator",
        fmt_int (ProtocolRequirementFlags.ExtraDiscriminator r));
       ("function_impl",
        fmt_bool (ProtocolRequirementFlags.IsFunctionImpl r))] /\
  ConformanceFlags.String c =
    key_values
      [("retroactive", fmt_bool (ConformanceFlags.IsRetroactive c));
       ("synthesized_nonunique",
        fmt_bool (ConformanceFlags.IsSynthesizedNonUnique c));
       ("num_cond_reqs",
        fmt_int (ConformanceFlags.GetNumConditionalRequirements c));
       ("has_resilient_witnesses",
        fmt_bool (ConformanceFlags.HasResilientWitnesses c));
       ("has_generic_witness_table",
        fmt_bool (ConformanceFlags.HasGenericWitnessTable c));
       ("type_reference_kind",
        referenceKind_String (ConformanceFlags.GetTypeReferenceKind c))].
Proof.
  split; [| split].
  - apply GenericRequirementFlags_String_pairs.
  - apply ProtocolRequirementFlags_String_pairs.
  - apply ConformanceFlags_String_pairs.
Qed.

Lemma GRKind_String_unnamed k :
  ~ In k named_GRKinds -> GRKind_String k = "GRKind(" ++ fmt_int k ++ ")".
Proof.
  unfold named_GRKinds, GRKind_String; cbn [In]; intros H.
  repeat match goal with
         | |- context [?a =? ?b] =>
             destruct (Z.eqb_spec a b); [exfalso; apply H; auto 6 |]
         end.
  reflexivity.
Qed.

Lemma referenceKind_String_unnamed k :
  ~ In k named_referenceKinds ->
  referenceKind_String k = "referenceKind(" ++ fmt_int k ++ ")".
Proof.
  unfold named_referenceKinds, referenceKind_String; cbn [In]; intros H.
  repeat match goal with
         | |- context [?a =? ?b] =>
             destruct (Z.eqb_spec a b); [exfalso; apply H; auto 6 |]
         end.
  reflexivity.
Qed.

(** C8. A flag word whose kind field holds a value without a name (a
    generic-requirement kind other than 0, 1, 2, 3 and 0x1F, or a
    type-reference kind in 4-7) is decoded all the same: the kind decoder
    returns the raw value of the field, and the word's [String] rendering
    shows that raw value. *)
Theorem C8_unnamed_kinds_surface_raw :
  (forall f : GenericRequirementFlags.t,
     is_unsigned 32 f ->
     ~ In (slice f 0 5) named_GRKinds ->
     GenericRequirementFlags.Kind f = slice f 0 5 /\
     GenericRequirementFlags.String f =
       key_values
         [("key_arg", fmt_bool (GenericRequirementFlags.HasKeyArgument f));
          ("extra_arg", fmt_bool (GenericRequirementFlags.HasExtraArgument f));
          ("kind", "GRKind(" ++ fmt_int (slice f 0 5) ++ ")")]) /\
  (forall f : ConformanceFlags.t,
     is_unsigned 32 f ->
     4 <= slice f 3 3 <= 7 ->
     ConformanceFlags.GetTypeReferenceKind f = slice f 3 3 /\
     ConformanceFlags.String f =
       key_values
         [("retroactive", fmt_bool (ConformanceFlags.IsRetroactive f));
          ("synthesized_nonunique",
           fmt_bool (ConformanceFlags.IsSynthesizedNonUnique f));
          ("num_cond_reqs",
           fmt_int (ConformanceFlags.GetNumConditionalRequirements f));
          ("has_resilient_witnesses",
           fmt_bool (ConformanceFlags.HasResilientWitnesses f));
          ("has_generic_witness_table",
           fmt_bool (ConformanceFlags.HasGenericWitnessTable f));
          ("type_reference_kind",
           "referenceKind(" ++ fmt_int (slice f 3 3) ++ ")")]).
Proof.
  split.
  - intros f _ Hk.
    split; [apply GR_Kind_slice |].
    rewrite GenericRequirementFlags_String_pairs, GR_Kind_slice.
    rewrite GRKind_String_unnamed by exact Hk.
    reflexivity.
  - intros f _ Hk.
    split; [apply GetTypeReferenceKind_slice |].
    rewrite ConformanceFlags_String_pairs, GetTypeReferenceKind_slice.
    rewrite referenceKind_String_unnamed; [reflexivity |].
    unfold named_referenceKinds, DirectTypeDescriptor, IndirectTypeDescriptor,
      DirectObjCClassName, IndirectObjCClass.
    cbn [In]; lia.
Qed.

Lemma C8_unnamed_kinds_surface_raw_witness :
  GenericRequirementFlags.String 0x85 =
    "key_arg: true, extra_arg: false, kind: GRKind(5)" /\
  ConformanceFlags.GetTypeReferenceKind 0x30 = 6.
Proof.
  split.
  - apply (proj2 (proj1 C8_unnamed_kinds_surface_raw 0x85
                    ltac:(unfold is_unsigned; lia)
                    ltac:(cbn; intuition discriminate))).
  - apply (proj1 (proj2 C8_unnamed_kinds_surface_raw 0x30
                    ltac:(unfold is_unsigned; lia)
                    ltac:(cbn; lia))).
Defined.

(** *** The rendering of a protocol *)

Lemma Descriptor_String_lines (flagsString : Z -> string) (d : Descriptor) :
  Descriptor_String flagsString d =
  "Flags: (" ++ flagsString (Flags d) ++ ")" ++ LF ++
  "NumRequirementsInSignature: " ++
  fmt_int (NumRequirementsInSignature d) ++ LF ++
  "NumRequirements:            " ++ fmt_int (NumRequirements d).
Proof.
  unfold Descriptor_String.
  generalize (flagsString (Flags d)) as fl.
  generalize (NumRequirementsInSignature d) as n.
  generalize (NumRequirements d) as m.
  intros m n fl.
  cbn -[fmt_int].
  rewrite append_empty_r. reflexivity.
Qed.

Lemma Protocol_String_unfold (flagsString : Z -> string) (p : Protocol) :
  Protocol_String flagsString p =
  "Name:           " ++ Name p ++ LF ++
  (if negb (AssociatedTypeNamesOffset (Desc p) =? 0)
   then "AssociatedType: " ++ AssociatedType p ++ LF
   else "") ++
  Descriptor_String flagsString (Desc p) ++
  (if negb (ParentOffset (Desc p) =? 0)
   then LF ++ "---" ++ LF ++ "Parent " ++ Parent_String flagsString p ++ LF
   else "").
Proof.
  destruct p as [name assoc parent d sig reqs].
  unfold Parent_String.
  cbn [Protocol_String Name AssociatedType Parent Desc].
  generalize (Descriptor_String flagsString d) as ds.
  generalize (match parent with
              | Some q => Protocol_String flagsString q
              | None => nilAngleString
              end) as ps.
  intros ps ds.
  destruct (negb (AssociatedTypeNamesOffset d =? 0)),
           (negb (ParentOffset d =? 0));
    cbn; rewrite ?append_empty_r; reflexivity.
Qed.

(** C6. The rendering of a protocol has the [AssociatedType] line if and
    only if the header's [AssociatedTypeNamesOffset] is not zero, and the
    [---] separator followed by the [Parent] rendering if and only if the
    header's [ParentOffset] is not zero; the [Name] line, the [Flags] line
    and the [NumRequirementsInSignature] and [NumRequirements] lines are in
    every rendering. *)
Theorem C6_protocol_rendering (flagsString : Z -> string) (p : Protocol) :
  exists assoc parent : option string,
    Protocol_String flagsString p =
      layout (Name p) assoc (flagsString (Flags (Desc p)))
        (NumRequirementsInSignature (Desc p)) (NumRequirements (Desc p))
        parent /\
    (assoc = Some (AssociatedType p) <->
       AssociatedTypeNamesOffset (Desc p) <> 0) /\
    (assoc = None <-> AssociatedTypeNamesOffset (Desc p) = 0) /\
    (parent = Some (Parent_String flagsString p) <->
       ParentOffset (Desc p) <> 0) /\
    (parent = None <-> ParentOffset (Desc p) = 0).
Proof.
  exists (if AssociatedTypeNamesOffset (Desc p) =? 0
          then None else Some (AssociatedType p)).
  exists (if ParentOffset (Desc p) =? 0
          then None else Some (Parent_String flagsString p)).
  split.
  - rewrite Protocol_String_unfold, Descriptor_String_lines.
    unfold layout.
    destruct (AssociatedTypeNamesOffset (Desc p) =? 0),
             (ParentOffset (Desc p) =? 0);
      cbn [negb]; rewrite !append_assoc; reflexivity.
  - destruct (Z.eqb_spec (AssociatedTypeNamesOffset (Desc p)) 0) as [Ha | Ha],
             (Z.eqb_spec (ParentOffset (Desc p)) 0) as [Hp | Hp];
      repeat split; intros; congruence.
Qed.

End Renderings.

(** ** Protocol context-descriptor flags *)

Section ContextDescriptorRoundTrip.

Import golang protocols.

Lemma testbit_b2z b i : Z.testbit (Z.b2z b) i = b && (i =? 0).
Proof.
  destruct b; cbn [Z.b2z andb].
  - destruct (Z.ltb_spec i 0) as [Hneg | Hpos].
    + rewrite Z.testbit_neg_r by assumption.
      symmetry; apply Z.eqb_neq; lia.
    + change 1 with (2 ^ 0); rewrite Z.eqb_sym.
      apply Z.pow2_bits_eqb; lia.
  - apply Z.bits_0.
Qed.

(** What comes back from the three fields: bits 0-7, and nothing above. *)
Lemma roundtrip_bits v i :
  0 <= i ->
  Z.testbit (roundtrip v) i = if i <? 8 then Z.testbit v i else false.
Proof.
  intros Hi.
  unfold roundtrip, recombine, hasClassConstraint, isResilient,
    getSpecialProtocolKind, getFlag, getField, uint16, to_unsigned,
    HasClassConstraint, IsResilient, SpecialProtocolKind,
    SpecialProtocolKind_width.
  destruct (Z.ltb_spec i 16) as [Hlt | Hge].
  - rewrite Z.mod_pow2_bits_low by lia.
    rewrite !Z.lor_spec, !Z.shiftl_spec, !testbit_b2z by assumption.
    destruct (Z.ltb_spec (i - 2) 0) as [Hlow | Hhigh].
    + rewrite (Z.testbit_neg_r _ (i - 2)) by assumption.
      assert (Hc : i = 0 \/ i = 1) by lia.
      destruct Hc as [-> | ->].
      * change (0 - 0 =? 0) with true; change (0 - 1 =? 0) with false.
        rewrite andb_true_r, andb_false_r, !orb_false_r; reflexivity.
      * change (1 - 0 =? 0) with false; change (1 - 1 =? 0) with true.
        rewrite andb_true_r, andb_false_r, orb_false_r; reflexivity.
    + rewrite Z.land_spec, Z.shiftr_spec by assumption.
      replace (i - 2 + 2) with i by lia.
      replace (i - 0 =? 0) with false by (symmetry; apply Z.eqb_neq; lia).
      replace (i - 1 =? 0) with false by (symmetry; apply Z.eqb_neq; lia).
      rewrite !andb_false_r; cbn [orb].
      destruct (Z.ltb_spec i 8).
      * rewrite Z.ones_spec_low by lia. apply andb_true_r.
      * rewrite Z.ones_spec_high by lia. apply andb_false_r.
  - rewrite Z.mod_pow2_bits_high by lia.
    destruct (Z.ltb_spec i 8); [lia | reflexivity].
Qed.

Lemma roundtrip_slice v : roundtrip v = slice v 0 8.
Proof.
  apply Z.bits_inj'; intros i Hi.
  rewrite roundtrip_bits, slice_bits by lia.
  rewrite Z.add_0_r; reflexivity.
Qed.

(** The kind-specific flags of a descriptor are a 16-bit value, whatever
    [KindSpecific] returns. *)
Lemma GetProtocolContextDescriptorFlags_unsigned KindSpecific d :
  is_unsigned 16 (GetProtocolContextDescriptorFlags KindSpecific d).
Proof.
  unfold GetProtocolContextDescriptorFlags, uint16, to_unsigned, is_unsigned.
  apply Z.mod_pos_bound; lia.
Qed.

(** C1, as stated, fails: the three fields cover bits 0-7 only, so a 16-bit
    value with a bit set above them does not come back. *)
Lemma C1_roundtrip_counterexample :
  is_unsigned 16 0x100 /\ roundtrip 0x100 <> 0x100.
Proof.
  split.
  - unfold is_unsigned; lia.
  - rewrite roundtrip_slice; vm_compute; discriminate.
Qed.

(** C1, amended. For every 16-bit kind-specific flag value, extracting the
    class-constraint bit (bit 0), the resilience bit (bit 1) and the 6-bit
    special-protocol-kind field (bits 2-7) and recombining them at their
    positions gives the low 8 bits of the value; it gives the value itself
    exactly when bits 8-15 of the value are zero. *)
Theorem C1_roundtrip_low_byte (v : ProtocolContextDescriptorFlags) :
  is_unsigned 16 v ->
  roundtrip v = v mod 2 ^ 8 /\
  (roundtrip v = v <-> v < 2 ^ 8) /\
  hasClassConstraint (roundtrip v) = hasClassConstraint v /\
  isResilient (roundtrip v) = isResilient v /\
  getSpecialProtocolKind (roundtrip v) = getSpecialProtocolKind v.
Proof.
  intros [Hlo Hhi].
  assert (Hr : roundtrip v = v mod 2 ^ 8).
  { rewrite roundtrip_slice; unfold slice.
    rewrite Z.pow_0_r, Z.div_1_r; reflexivity. }
  split; [exact Hr | split; [| repeat split]].
  - rewrite Hr; split; intros H.
    + pose proof (Z.mod_pos_bound v (2 ^ 8)); lia.
    + apply Z.mod_small; lia.
  - unfold hasClassConstraint, getFlag, HasClassConstraint.
    rewrite roundtrip_bits by lia; reflexivity.
  - unfold isResilient, getFlag, IsResilient.
    rewrite roundtrip_bits by lia; reflexivity.
  - unfold getSpecialProtocolKind, getField, SpecialProtocolKind,
      SpecialProtocolKind_width.
    apply Z.bits_inj'; intros i Hi.
    rewrite !Z.land_spec, !Z.shiftr_spec, roundtrip_bits by lia.
    destruct (Z.ltb_spec (i + 2) 8); [reflexivity |].
    rewrite Z.ones_spec_high by lia.
    rewrite !andb_false_r; reflexivity.
Qed.

Lemma C1_roundtrip_low_byte_witness :
  roundtrip 0xAB = 0xAB /\ roundtrip 0x1AB = 0xAB.
Proof.
  split.
  - apply (proj1 (proj2 (C1_roundtrip_low_byte 0xAB
                           ltac:(unfold is_unsigned; lia)))).
    lia.
  - apply (proj1 (C1_roundtrip_low_byte 0x1AB
                    ltac:(unfold is_unsigned; lia))).
Defined.

End ContextDescriptorRoundTrip.

(** ** Words and the bits the decoders read *)

Section WordBits.

Import golang.

Lemma b2z_testbit_slice f n : 0 <= n -> Z.b2z (Z.testbit f n) = slice f n 1.
Proof. intros Hn; unfold slice; apply Z.testbit_spec'; exact Hn. Qed.

Lemma testbit_of_slice f n b :
  0 <= n -> slice f n 1 = Z.b2z b -> Z.testbit f n = b.
Proof.
  intros Hn H; apply Z.b2z_inj.
  rewrite b2z_testbit_slice by exact Hn; exact H.
Qed.

End WordBits.

(** ** Protocol-requirement flags: the bits that count *)

Section ProtocolRequirementWords.

Import golang protocols.
Import ProtocolRequirementFlags.

(** X1. Two protocol-requirement flag words that agree on bits 0-5 and
    16-31 have the same [IsSignedWithAddress], the same [IsFunctionImpl]
    and the same [String] rendering: bits 6-15 are never read. *)
Theorem X1_PR_rendering_ignores_unused_bits (f g : t) :
  (forall i, 0 <= i < 6 \/ 16 <= i < 32 -> Z.testbit f i = Z.testbit g i) ->
  IsSignedWithAddress f = IsSignedWithAddress g /\
  IsFunctionImpl f = IsFunctionImpl g /\
  String f = String g.
Proof.
  intros H.
  assert (Hk : Kind f = Kind g).
  { rewrite !PR_Kind_slice; apply slice_ext; [lia | lia |].
    intros i Hi; apply H; lia. }
  assert (Hi : IsInstance f = IsInstance g)
    by (rewrite !PR_IsInstance_bit; apply H; lia).
  assert (Ha : IsAsync f = IsAsync g)
    by (rewrite !PR_IsAsync_bit; apply H; lia).
  assert (He : ExtraDiscriminator f = ExtraDiscriminator g).
  { rewrite !PR_ExtraDiscriminator_slice; apply slice_ext; [lia | lia |].
    intros i Hr; apply H; lia. }
  assert (Hs : IsSignedWithAddress f = IsSignedWithAddress g)
    by (unfold IsSignedWithAddress; rewrite Hk; reflexivity).
  assert (Hf : IsFunctionImpl f = IsFunctionImpl g)
    by (unfold IsFunctionImpl; rewrite Hk, Ha; reflexivity).
  split; [exact Hs | split; [exact Hf |]].
  unfold String; rewrite Hk, Hi, Ha, Hs, He, Hf; reflexivity.
Qed.

Lemma X1_PR_rendering_ignores_unused_bits_witness :
  String 0x1234FFD3 = String 0x12340013.
Proof.
  apply (X1_PR_rendering_ignores_unused_bits 0x1234FFD3 0x12340013).
  intros i [Hi | Hi].
  - exact (agree_on_sound 0x1234FFD3 0x12340013 0 6 eq_refl i Hi).
  - exact (agree_on_sound 0x1234FFD3 0x12340013 16 16 eq_refl i Hi).
Defined.

(** X2. A 32-bit protocol-requirement flag word is put together from what
    the decoders return and its bits 6-15: the decoders lose nothing else.
    [Kind] is below 16 and [ExtraDiscriminator] below 65536. *)
Theorem X2_PR_word_decomposition (f : t) :
  is_unsigned 32 f ->
  f = Kind f
      + 2 ^ 4 * Z.b2z (IsInstance f)
      + 2 ^ 5 * Z.b2z (IsAsync f)
      + 2 ^ 6 * slice f 6 10
      + 2 ^ 16 * ExtraDiscriminator f /\
  0 <= Kind f < 2 ^ 4 /\
  0 <= ExtraDiscriminator f < 2 ^ 16.
Proof.
  intros [Hlo Hhi].
  rewrite PR_Kind_slice, PR_IsInstance_bit, PR_IsAsync_bit,
    PR_ExtraDiscriminator_slice.
  rewrite !b2z_testbit_slice by lia.
  split; [| split; apply slice_range; lia].
  unfold slice.
  change (2 ^ 0) with 1; change (2 ^ 1) with 2; change (2 ^ 4) with 16;
    change (2 ^ 5) with 32; change (2 ^ 6) with 64;
    change (2 ^ 10) with 1024; change (2 ^ 16) with 65536.
  change (2 ^ 32) with 4294967296 in Hhi.
  Z.div_mod_to_equations; lia.
Qed.

Lemma X2_PR_word_decomposition_witness :
  0x1234FFD3 = Kind 0x1234FFD3
      + 2 ^ 4 * Z.b2z (IsInstance 0x1234FFD3)
      + 2 ^ 5 * Z.b2z (IsAsync 0x1234FFD3)
      + 2 ^ 6 * slice 0x1234FFD3 6 10
      + 2 ^ 16 * ExtraDiscriminator 0x1234FFD3.
Proof.
  apply (X2_PR_word_decomposition 0x1234FFD3).
  unfold is_unsigned; lia.
Defined.

(** X3. A flag word that is a function implementation is signed with
    address and not async; a word that is not signed with address has kind
    [BaseProtocol] and is no function implementation. *)
Theorem X3_PR_function_impl_is_signed (f : t) :
  (IsFunctionImpl f = true ->
   IsSignedWithAddress f = true /\ IsAsync f = false) /\
  (IsSignedWithAddress f = false ->
   Kind f = BaseProtocol /\ IsFunctionImpl f = false).
Proof.
  assert (Hs : IsSignedWithAddress f = false -> Kind f = BaseProtocol).
  { unfold IsSignedWithAddress; intros H.
    apply negb_false_iff, Z.eqb_eq in H; exact H. }
  destruct (IsFunctionImpl_cases f) as [[Hin Heq] | [Hout Heq]].
  - assert (Hne : Kind f <> BaseProtocol).
    { unfold function_kinds, Method, Init, Getter, Setter, ReadCoroutine,
        ModifyCoroutine, BaseProtocol in *.
      cbn [In] in Hin; lia. }
    split.
    + intros H; rewrite Heq in H; apply negb_true_iff in H.
      split; [| exact H].
      unfold IsSignedWithAddress.
      apply negb_true_iff, Z.eqb_neq; exact Hne.
    + intros H; contradiction (Hne (Hs H)).
  - split.
    + rewrite Heq; discriminate.
    + intros H; split; [exact (Hs H) | exact Heq].
Qed.

Lemma X3_PR_function_impl_is_signed_witness :
  IsSignedWithAddress 0x13 = true /\ IsAsync 0x13 = false.
Proof.
  apply (proj1 (X3_PR_function_impl_is_signed 0x13)); reflexivity.
Defined.

End ProtocolRequirementWords.

(** ** Generic-requirement flags: the bits that count *)

Section GenericRequirementWords.

Import golang protocols.
Import GenericRequirementFlags.

Lemma GR_HasKeyArgument_bit f : HasKeyArgument f = Z.testbit f 7.
Proof. apply (land_bit_test f 7); lia. Qed.

Lemma GR_HasExtraArgument_bit f : HasExtraArgument f = Z.testbit f 6.
Proof. apply (land_bit_test f 6); lia. Qed.

(** X4. Two generic-requirement flag words that agree on bits 0-4, 6 and 7
    have the same [Kind], [HasKeyArgument], [HasExtraArgument] and [String]
    rendering: bit 5 and bits 8-31 are never read. *)
Theorem X4_GR_reads_bits_0_4_6_7 (f g : t) :
  (forall i, 0 <= i < 5 \/ 6 <= i < 8 -> Z.testbit f i = Z.testbit g i) ->
  Kind f = Kind g /\
  HasKeyArgument f = HasKeyArgument g /\
  HasExtraArgument f = HasExtraArgument g /\
  String f = String g.
Proof.
  intros H.
  assert (Hk : Kind f = Kind g).
  { rewrite !GR_Kind_slice; apply slice_ext; [lia | lia |].
    intros i Hi; apply H; lia. }
  assert (Ha : HasKeyArgument f = HasKeyArgument g)
    by (rewrite !GR_HasKeyArgument_bit; apply H; lia).
  assert (He : HasExtraArgument f = HasExtraArgument g)
    by (rewrite !GR_HasExtraArgument_bit; apply H; lia).
  repeat split; try assumption.
  unfold String; rewrite Hk, Ha, He; reflexivity.
Qed.

Lemma X4_GR_reads_bits_0_4_6_7_witness :
  String 0xFFFFFFA5 = String 0x85.
Proof.
  apply (X4_GR_reads_bits_0_4_6_7 0xFFFFFFA5 0x85).
  intros i [Hi | Hi].
  - exact (agree_on_sound 0xFFFFFFA5 0x85 0 5 eq_refl i Hi).
  - exact (agree_on_sound 0xFFFFFFA5 0x85 6 2 eq_refl i Hi).
Defined.

(** X5. A 32-bit generic-requirement flag word is put together from what
    the decoders return, its bit 5 and its bits 8-31; [Kind] is below 32. *)
Theorem X5_GR_word_decomposition (f : t) :
  is_unsigned 32 f ->
  f = Kind f
      + 2 ^ 5 * slice f 5 1
      + 2 ^ 6 * Z.b2z (HasExtraArgument f)
      + 2 ^ 7 * Z.b2z (HasKeyArgument f)
      + 2 ^ 8 * slice f 8 24 /\
  0 <= Kind f < 2 ^ 5.
Proof.
  intros [Hlo Hhi].
  rewrite GR_Kind_slice, GR_HasKeyArgument_bit, GR_HasExtraArgument_bit.
  rewrite !b2z_testbit_slice by lia.
  split; [| apply slice_range; lia].
  unfold slice.
  change (2 ^ 0) with 1; change (2 ^ 1) with 2; change (2 ^ 5) with 32;
    change (2 ^ 6) with 64; change (2 ^ 7) with 128;
    change (2 ^ 8) with 256; change (2 ^ 24) with 16777216.
  change (2 ^ 32) with 4294967296 in Hhi.
  Z.div_mod_to_equations; lia.
Qed.

Lemma X5_GR_word_decomposition_witness :
  0xFFFFFFA5 = Kind 0xFFFFFFA5
      + 2 ^ 5 * slice 0xFFFFFFA5 5 1
      + 2 ^ 6 * Z.b2z (HasExtraArgument 0xFFFFFFA5)
      + 2 ^ 7 * Z.b2z (HasKeyArgument 0xFFFFFFA5)
      + 2 ^ 8 * slice 0xFFFFFFA5 8 24.
Proof.
  apply (X5_GR_word_decomposition 0xFFFFFFA5).
  unfold is_unsigned; lia.
Defined.

(** X6. Every combination of a 5-bit kind and the two booleans is what the
    decoders return on some flag word, one that fits in 8 bits. *)
Theorem X6_GR_fields_independent (k : GRKind) (key extra : bool) :
  is_unsigned 5 k ->
  exists f : t,
    is_unsigned 8 f /\ Kind f = k /\
    HasKeyArgument f = key /\ HasExtraArgument f = extra.
Proof.
  unfold is_unsigned; change (2 ^ 5) with 32; change (2 ^ 8) with 256.
  intros Hk.
  exists (k + 64 * Z.b2z extra + 128 * Z.b2z key).
  rewrite GR_Kind_slice, GR_HasKeyArgument_bit, GR_HasExtraArgument_bit.
  assert (He : 0 <= Z.b2z extra <= 1) by (destruct extra; cbn; lia).
  assert (Hy : 0 <= Z.b2z key <= 1) by (destruct key; cbn; lia).
  repeat split; try lia.
  - unfold slice; change (2 ^ 0) with 1; change (2 ^ 5) with 32.
    Z.div_mod_to_equations; lia.
  - apply testbit_of_slice; [lia |].
    unfold slice; change (2 ^ 7) with 128; change (2 ^ 1) with 2.
    Z.div_mod_to_equations; lia.
  - apply testbit_of_slice; [lia |].
    unfold slice; change (2 ^ 6) with 64; change (2 ^ 1) with 2.
    Z.div_mod_to_equations; lia.
Qed.

Lemma X6_GR_fields_independent_witness :
  exists f : t,
    is_unsigned 8 f /\ Kind f = GRKindLayout /\
    HasKeyArgument f = true /\ HasExtraArgument f = false.
Proof.
  apply (X6_GR_fields_independent GRKindLayout true false).
  unfold is_unsigned, GRKindLayout; lia.
Defined.

End GenericRequirementWords.

(** ** Conformance flags: the bits that count *)

Section ConformanceWords.

Import golang protocols.
Import ConformanceFlags.

Lemma IsRetroactive_bit f : IsRetroactive f = Z.testbit f 6.
Proof. apply (land_bit_test f 6); lia. Qed.

Lemma IsSynthesizedNonUnique_bit f : IsSynthesizedNonUnique f = Z.testbit f 7.
Proof. apply (land_bit_test f 7); lia. Qed.

Lemma HasResilientWitnesses_bit f : HasResilientWitnesses f = Z.testbit f 16.
Proof. apply (land_bit_test f 16); lia. Qed.

Lemma HasGenericWitnessTable_bit f : HasGenericWitnessTable f = Z.testbit f 17.
Proof. apply (land_bit_test f 17); lia. Qed.

(** X7. Two conformance flag words that agree on bits 3-17 have the same
    six decoded values and the same [String] rendering: the low three bits
    ([UnusedLowBits]) and bits 18-31 are never read. *)
Theorem X7_Conformance_reads_bits_3_17 (f g : t) :
  (forall i, 3 <= i < 18 -> Z.testbit f i = Z.testbit g i) ->
  GetTypeReferenceKind f = GetTypeReferenceKind g /\
  IsRetroactive f = IsRetroactive g /\
  IsSynthesizedNonUnique f = IsSynthesizedNonUnique g /\
  GetNumConditionalRequirements f = GetNumConditionalRequirements g /\
  HasResilientWitnesses f = HasResilientWitnesses g /\
  HasGenericWitnessTable f = HasGenericWitnessTable g /\
  String f = String g.
Proof.
  intros H.
  assert (Hk : GetTypeReferenceKind f = GetTypeReferenceKind g).
  { rewrite !GetTypeReferenceKind_slice; apply slice_ext; [lia | lia |].
    intros i Hi; apply H; lia. }
  assert (Hr : IsRetroactive f = IsRetroactive g)
    by (rewrite !IsRetroactive_bit; apply H; lia).
  assert (Hs : IsSynthesizedNonUnique f = IsSynthesizedNonUnique g)
    by (rewrite !IsSynthesizedNonUnique_bit; apply H; lia).
  assert (Hn : GetNumConditionalRequirements f =
               GetNumConditionalRequirements g).
  { rewrite !GetNumConditionalRequirements_slice.
    apply slice_ext; [lia | lia |].
    intros i Hi; apply H; lia. }
  assert (Hw : HasResilientWitnesses f = HasResilientWitnesses g)
    by (rewrite !HasResilientWitnesses_bit; apply H; lia).
  assert (Hg : HasGenericWitnessTable f = HasGenericWitnessTable g)
    by (rewrite !HasGenericWitnessTable_bit; apply H; lia).
  repeat split; try assumption.
  unfold String; rewrite Hk, Hr, Hs, Hn, Hw, Hg; reflexivity.
Qed.

Lemma X7_Conformance_reads_bits_3_17_witness :
  String 0xFFFF1237 = String 0x31230.
Proof.
  apply (X7_Conformance_reads_bits_3_17 0xFFFF1237 0x31230).
  exact (agree_on_sound 0xFFFF1237 0x31230 3 15 eq_refl).
Defined.

(** X8. A 32-bit conformance flag word is put together from its low three
    bits, what the six decoders return, and its bits 18-31; the type
    reference kind is below 8. *)
Theorem X8_Conformance_word_decomposition (f : t) :
  is_unsigned 32 f ->
  f = slice f 0 3
      + 2 ^ 3 * GetTypeReferenceKind f
      + 2 ^ 6 * Z.b2z (IsRetroactive f)
      + 2 ^ 7 * Z.b2z (IsSynthesizedNonUnique f)
      + 2 ^ 8 * GetNumConditionalRequirements f
      + 2 ^ 16 * Z.b2z (HasResilientWitnesses f)
      + 2 ^ 17 * Z.b2z (HasGenericWitnessTable f)
      + 2 ^ 18 * slice f 18 14 /\
  0 <= GetTypeReferenceKind f < 2 ^ 3.
Proof.
  intros [Hlo Hhi].
  rewrite GetTypeReferenceKind_slice, IsRetroactive_bit,
    IsSynthesizedNonUnique_bit, GetNumConditionalRequirements_slice,
    HasResilientWitnesses_bit, HasGenericWitnessTable_bit.
  rewrite !b2z_testbit_slice by lia.
  split; [| apply slice_range; lia].
  unfold slice.
  change (2 ^ 0) with 1; change (2 ^ 1) with 2; change (2 ^ 3) with 8;
    change (2 ^ 6) with 64; change (2 ^ 7) with 128;
    change (2 ^ 8) with 256; change (2 ^ 14) with 16384;
    change (2 ^ 16) with 65536; change (2 ^ 17) with 131072;
    change (2 ^ 18) with 262144.
  change (2 ^ 32) with 4294967296 in Hhi.
  Z.div_mod_to_equations; lia.
Qed.


Lemma X8_Conformance_word_decomposition_witness :
  0xFFFF1237 = slice 0xFFFF1237 0 3
      + 2 ^ 3 * GetTypeReferenceKind 0xFFFF1237
      + 2 ^ 6 * Z.b2z (IsRetroactive 0xFFFF1237)
      + 2 ^ 7 * Z.b2z (IsSynthesizedNonUnique 0xFFFF1237)
      + 2 ^ 8 * GetNumConditionalRequirements 0xFFFF1237
      + 2 ^ 16 * Z.b2z (HasResilientWitnesses 0xFFFF1237)
      + 2 ^ 17 * Z.b2z (HasGenericWitnessTable 0xFFFF1237)
      + 2 ^ 18 * slice 0xFFFF1237 18 14.
Proof.
  apply (X8_Conformance_word_decomposition 0xFFFF1237).
  unfold is_unsigned; lia.
Defined.

(** X9. Every combination of a 3-bit type reference kind, an 8-bit count
    and the four booleans is what the decoders return on some flag word,
    one that fits in 18 bits. *)
Theorem X9_Conformance_fields_independent
    (k : referenceKind) (retro synth : bool) (n : Z) (resil generic : bool) :
  is_unsigned 3 k -> is_unsigned 8 n ->
  exists f : t,
    is_unsigned 18 f /\
    GetTypeReferenceKind f = k /\
    IsRetroactive f = retro /\
    IsSynthesizedNonUnique f = synth /\
    GetNumConditionalRequirements f = n /\
    HasResilientWitnesses f = resil /\
    HasGenericWitnessTable f = generic.
Proof.
  unfold is_unsigned.
  change (2 ^ 3) with 8; change (2 ^ 8) with 256; change (2 ^ 18) with 262144.
  intros Hk Hn.
  exists (8 * k + 64 * Z.b2z retro + 128 * Z.b2z synth + 256 * n
          + 65536 * Z.b2z resil + 131072 * Z.b2z generic).
  rewrite GetTypeReferenceKind_slice, IsRetroactive_bit,
    IsSynthesizedNonUnique_bit, GetNumConditionalRequirements_slice,
    HasResilientWitnesses_bit, HasGenericWitnessTable_bit.
  assert (Hr : 0 <= Z.b2z retro <= 1) by (destruct retro; cbn; lia).
  assert (Hs : 0 <= Z.b2z synth <= 1) by (destruct synth; cbn; lia).
  assert (Hw : 0 <= Z.b2z resil <= 1) by (destruct resil; cbn; lia).
  assert (Hg : 0 <= Z.b2z generic <= 1) by (destruct generic; cbn; lia).
  repeat split; try lia.
  - unfold slice; change (2 ^ 3) with 8.
    Z.div_mod_to_equations; lia.
  - apply testbit_of_slice; [lia |].
    unfold slice; change (2 ^ 6) with 64; change (2 ^ 1) with 2.
    Z.div_mod_to_equations; lia.
  - apply testbit_of_slice; [lia |].
    unfold slice; change (2 ^ 7) with 128; change (2 ^ 1) with 2.
    Z.div_mod_to_equations; lia.
  - unfold slice; change (2 ^ 8) with 256.
    Z.div_mod_to_equations; lia.
  - apply testbit_of_slice; [lia |].
    unfold slice; change (2 ^ 16) with 65536; change (2 ^ 1) with 2.
    Z.div_mod_to_equations; lia.
  - apply testbit_of_slice; [lia |].
    unfold slice; change (2 ^ 17) with 131072; change (2 ^ 1) with 2.
    Z.div_mod_to_equations; lia.
Qed.

Lemma X9_Conformance_fields_independent_witness :
  exists f : t,
    is_unsigned 18 f /\
    GetTypeReferenceKind f = IndirectObjCClass /\
    IsRetroactive f = true /\
    IsSynthesizedNonUnique f = false /\
    GetNumConditionalRequirements f = 255 /\
    HasResilientWitnesses f = false /\
    HasGenericWitnessTable f = true.
Proof.
  apply (X9_Conformance_fields_independent IndirectObjCClass true false 255
           false true);
    unfold is_unsigned, IndirectObjCClass; lia.
Defined.

(** X10. The type reference kind of a conformance flag word is one of the
    four declared kinds exactly when bit 5 of the word is clear. *)
Theorem X10_named_reference_kind_iff_bit5_clear (f : t) :
  In (GetTypeReferenceKind f) named_referenceKinds <-> Z.testbit f 5 = false.
Proof.
  rewrite GetTypeReferenceKind_slice.
  unfold named_referenceKinds, DirectTypeDescriptor, IndirectTypeDescriptor,
    DirectObjCClassName, IndirectObjCClass; cbn [In].
  pose proof (b2z_testbit_slice f 5 ltac:(lia)) as Hb.
  assert (Hs : slice f 3 3 < 4 <-> slice f 5 1 = 0).
  { unfold slice.
    change (2 ^ 3) with 8; change (2 ^ 5) with 32; change (2 ^ 1) with 2.
    Z.div_mod_to_equations; lia. }
  pose proof (slice_range f 3 3 ltac:(lia)) as Hrange.
  destruct (Z.testbit f 5); cbn [Z.b2z] in Hb; split; intros H.
  - exfalso; lia.
  - discriminate.
  - reflexivity.
  - assert (slice f 3 3 < 4) by (apply Hs; lia). lia.
Qed.

End ConformanceWords.

(** ** What a protocol's rendering shows *)

Section ProtocolRendering.

Import golang protocols.

(** X11. The rendering of a protocol shows its name, the flags and the two
    counts of the header, the associated types when the header's
    [AssociatedTypeNamesOffset] is not zero and the parent when the header's
    [ParentOffset] is not zero, and nothing else: two protocols alike in
    these render alike, whatever their requirement lists, their name
    offsets, the values of their non-zero offsets, and the [AssociatedType]
    and [Parent] that a zero offset hides. *)
Theorem X11_Protocol_String_shown_data (flagsString : Z -> string) (p q : Protocol) :
  Name p = Name q ->
  Flags (Desc p) = Flags (Desc q) ->
  NumRequirementsInSignature (Desc p) = NumRequirementsInSignature (Desc q) ->
  NumRequirements (Desc p) = NumRequirements (Desc q) ->
  (AssociatedTypeNamesOffset (Desc p) = 0 /\
   AssociatedTypeNamesOffset (Desc q) = 0 \/
   AssociatedTypeNamesOffset (Desc p) <> 0 /\
   AssociatedTypeNamesOffset (Desc q) <> 0 /\
   AssociatedType p = AssociatedType q) ->
  (ParentOffset (Desc p) = 0 /\ ParentOffset (Desc q) = 0 \/
   ParentOffset (Desc p) <> 0 /\ ParentOffset (Desc q) <> 0 /\
   Parent_String flagsString p = Parent_String flagsString q) ->
  Protocol_String flagsString p = Protocol_String flagsString q.
Proof.
  intros Hn Hf Hs Hr Ha Hp.
  rewrite !Protocol_String_unfold, !Descriptor_String_lines.
  rewrite Hn, Hf, Hs, Hr.
  assert (Ea :
    (if negb (AssociatedTypeNamesOffset (Desc p) =? 0)
     then "AssociatedType: " ++ AssociatedType p ++ LF else "") =
    (if negb (AssociatedTypeNamesOffset (Desc q) =? 0)
     then "AssociatedType: " ++ AssociatedType q ++ LF else "")).
  { destruct Ha as [[H1 H2] | [H1 [H2 H3]]].
    - rewrite H1, H2; reflexivity.
    - apply Z.eqb_neq in H1, H2; rewrite H1, H2, H3; reflexivity. }
  assert (Ep :
    (if negb (ParentOffset (Desc p) =? 0)
     then LF ++ "---" ++ LF ++ "Parent " ++ Parent_String flagsString p ++ LF
     else "") =
    (if negb (ParentOffset (Desc q) =? 0)
     then LF ++ "---" ++ LF ++ "Parent " ++ Parent_String flagsString q ++ LF
     else "")).
  { destruct Hp as [[H1 H2] | [H1 [H2 H3]]].
    - rewrite H1, H2; reflexivity.
    - apply Z.eqb_neq in H1, H2; rewrite H1, H2, H3; reflexivity. }
  rewrite Ea, Ep; reflexivity.
Qed.

Lemma X11_Protocol_String_shown_data_witness :
  Protocol_String samples.sample_flags
    (mkProtocol "Base" "hidden" (Some samples.child_protocol)
       (mkDescriptor 0x43 0 99 0 1 0) []
       [mkTargetProtocolRequirement 0x25 7; mkTargetProtocolRequirement 0 0]) =
  Protocol_String samples.sample_flags samples.base_protocol.
Proof.
  apply X11_Protocol_String_shown_data; try reflexivity.
  - left; split; reflexivity.
  - left; split; reflexivity.
Defined.

End ProtocolRendering.

(** ** The field predicates cover the declared kinds *)

Section FieldCoverage.

Import fields.

(** X12. One of [IsEnum], [IsClass], [IsProtocol] holds of a field exactly
    when its descriptor's kind is a declared kind other than [Struct]. *)
Theorem X12_field_predicates_cover_declared_kinds (f : Field) :
  IsEnum f || IsClass f || IsProtocol f = true <->
  In (DescriptorKind f) declared_kinds /\ DescriptorKind f <> Struct.
Proof.
  unfold IsEnum, IsClass, IsProtocol, declared_kinds.
  generalize (DescriptorKind f) as k; intros k.
  unfold Struct, Class, Enum, MultiPayloadEnum, Protocol, ClassProtocol,
    ObjCProtocol, ObjCClass.
  cbn [In].
  rewrite !orb_true_iff, !Z.eqb_eq.
  lia.
Qed.

End FieldCoverage.

(** ** How a protocol's rendering ends *)

Section TrailingNewline.

Import golang protocols text.








End TrailingNewline.
